(** * go-keycloak: the user, realm-role and requesting-party operations

    A shallow embedding of [user.go] and of the realm-role / requesting-party
    file of the repository.  Every operation is a Go method on [*GoKeycloak]
    that builds one resty request, executes it and checks the outcome with
    [checkForError].  The embedding keeps that shape:

    - the receiver, the Go heap reachable through pointers and the list of
      requests put on the wire are the state of a small state monad [M];
    - the identity server together with the transport is an arbitrary
      function from the request history and the request to a [Reply];
    - Go's [error] interface is [option err], [nil] being [None];
    - declarations that live in other files of the repository are the
      fields of the classes [Schema] and [Glue]. *)

From Stdlib Require Import ZArith.
From stdpp Require Import base option list strings gmap.

Local Open Scope string_scope.
Local Open Scope Z_scope.

(** ** Go pointers and the heap *)

Definition addr := nat.

(** What a heap cell holds: the pointee of a [*string], a [*bool] or a
    [*[]string]. *)
Inductive cell : Type :=
| CString (s : string)
| CBool (b : bool)
| CStringSlice (l : list string).

Definition Mem := list cell.

(** A Go pointer to a [T]: [nil] or the address of a cell. *)
Inductive pointer (T : Type) : Type :=
| nil
| ref (a : addr).
Arguments nil {T}.
Arguments ref {T} a.

(** Modelled from the spec: the pointer helpers [PString], [PBool] and
    [PStringSlice] are not under src/.  A pointer field is the spec's
    "optional field present or absent"; reading an absent one gives the zero
    value of the type. *)
Definition PString (m : Mem) (p : pointer string) : string :=
  match p with
  | ref a => match m !! a with Some (CString s) => s | _ => "" end
  | nil => ""
  end.

Definition PBool (m : Mem) (p : pointer bool) : bool :=
  match p with
  | ref a => match m !! a with Some (CBool b) => b | _ => false end
  | nil => false
  end.

Definition PStringSlice (m : Mem) (p : pointer (list string)) : list string :=
  match p with
  | ref a => match m !! a with Some (CStringSlice l) => l | _ => [] end
  | nil => []
  end.

(** ** Errors: Go's [error] and github.com/pkg/errors *)

Inductive err : Type :=
| New (msg : string)                      (* errors.New(msg) *)
| Wrapped (cause : err) (msg : string)    (* errors.Wrap(cause, msg) *)
| TransportError (reason : string)        (* the error resty hands back *)
| StatusError (code : Z) (body : string). (* a non-success answer *)

Definition error := option err.

Definition errors_New (msg : string) : error := Some (New msg).

(** [errors.Wrap] returns nil when given nil. *)
Definition errors_Wrap (e : error) (msg : string) : error :=
  match e with
  | Some cause => Some (Wrapped cause msg)
  | None => None
  end.

(** [wraps e msg]: some layer of [e] was put on with the message [msg]. *)
Fixpoint wraps (e : err) (msg : string) : bool :=
  match e with
  | Wrapped cause m => bool_decide (m = msg) || wraps cause msg
  | _ => false
  end.

(** [root e]: the innermost error of the chain. *)
Fixpoint root (e : err) : err :=
  match e with
  | Wrapped cause _ => root cause
  | _ => e
  end.

(** ** net/http constants *)

Definition StatusBadRequest : Z := 400.
Definition StatusInternalServerError : Z := 500.

Definition MethodGet : string := "GET".
Definition MethodPost : string := "POST".
Definition MethodPut : string := "PUT".
Definition MethodDelete : string := "DELETE".

(** ** Responses *)

Record Response : Type := mkResponse {
  StatusCode : Z;
  RespBody : string;
  RespHeader : gmap string string
}.

(** resty's [IsSuccess]: a status in the 2xx range. *)
Definition IsSuccess (resp : Response) : bool :=
  (200 <=? StatusCode resp) && (StatusCode resp <=? 299).

(** The response resty returns when the transport failed: it has no raw
    response behind it and its [StatusCode()] is 0. *)
Definition noResponse : Response :=
  {| StatusCode := 0; RespBody := ""; RespHeader := ∅ |}.

(** The Go types a response body is decoded into ([SetResult]). *)
Inductive target : Type :=
| TUser | TUsers | TInt | TGroups | TUserSessions | TFederatedIdentities
| TRole | TRoles | TPermissions | TPermissionDecision | TJWT.

(** The second return value of the three-valued operations. *)
Inductive Value : Type :=
| Nil                                   (* a literal nil *)
| Str (s : string)
| Int (z : Z)
| Zero (t : target)                     (* a result variable left untouched *)
| Decoded (t : target) (body : string). (* the body unmarshalled at type t *)

(** What the variable handed to [SetResult] holds after the call: resty
    unmarshals the body into it on a success status and leaves it alone
    otherwise. *)
Definition resultOf (t : target) (resp : Response) : Value :=
  if IsSuccess resp then Decoded t (RespBody resp) else Zero t.

(** Modelled from the spec: [checkForError] is not under src/.  The spec:
    "did the HTTP call return a non-2xx status or a transport error, if so
    wrap and return it", the wrapping being "with a static per-call
    description", with "pass-through of the server's status code and body". *)
Definition checkForError (resp : Response) (e : error) (errMessage : string) : error :=
  match e with
  | Some cause => errors_Wrap (Some cause) errMessage
  | None =>
      if IsSuccess resp then None
      else errors_Wrap (Some (StatusError (StatusCode resp) (RespBody resp))) errMessage
  end.

(** ** Declarations of the repository that other files hold *)

(** The data-transfer structures and the client structure.  Of [User] the
    operations read the field [ID]; of the client, [Config.openIDConnect];
    the other structures are only handed on. *)
Class Schema : Type := {
  GoKeycloak : Type;
  openIDConnect : GoKeycloak -> string;
  User : Type;
  User_ID : User -> pointer string;
  Role : Type;
  FederatedIdentityRepresentation : Type;
  GetUsersParams : Type;
  GetGroupsParams : Type;
  GetUsersByRoleParams : Type;
  GetRoleParams : Type
}.

(** Modelled from the spec: the declaration of [SetPasswordRequest] is not
    under src/; its fields are the three that [SetPassword] fills. *)
Record SetPasswordRequest : Type := mkSetPasswordRequest {
  Type_ : pointer string;
  Temporary : pointer bool;
  Password : pointer string
}.

(** Modelled from the spec: the declaration of [RequestingPartyTokenOptions]
    is not under src/; its fields are the four that the operations name,
    each an "optional field present or absent". *)
Record RequestingPartyTokenOptions : Type := mkOptions {
  GrantType : pointer string;
  Audience : pointer string;
  ResponseMode : pointer string;
  Permissions : pointer (list string)
}.

(** The assignment [options.ResponseMode = p] on a struct variable. *)
Definition set_ResponseMode (p : pointer string)
    (options : RequestingPartyTokenOptions) : RequestingPartyTokenOptions :=
  {| GrantType := GrantType options;
     Audience := Audience options;
     ResponseMode := p;
     Permissions := Permissions options |}.

Section Client.
Context `{Schema}.

(** The [interface{}] argument of [GetQueryParams]. *)
Inductive Params : Type :=
| OfGetUsersParams (p : GetUsersParams)
| OfGetGroupsParams (p : GetGroupsParams)
| OfGetUsersByRoleParams (p : GetUsersByRoleParams)
| OfGetRoleParams (p : GetRoleParams).

(** The [interface{}] argument of resty's [SetBody]. *)
Inductive Body : Type :=
| OfUser (u : User)
| OfRole (r : Role)
| OfRoles (rs : list Role)
| OfSetPasswordRequest (r : SetPasswordRequest)
| OfFederatedIdentity (f : FederatedIdentityRepresentation).

(** ** resty requests *)

Record Request : Type := mkRequest {
  Method : string;
  URL : string;
  Token : string;
  ReqBody : option Body;
  QueryParam : gmap string string;
  FormData_ : gmap string (list string);   (* url.Values *)
  Result : option target
}.

Definition SetBody (b : Body) (r : Request) : Request :=
  mkRequest (Method r) (URL r) (Token r) (Some b) (QueryParam r) (FormData_ r) (Result r).

Definition SetResult (t : target) (r : Request) : Request :=
  mkRequest (Method r) (URL r) (Token r) (ReqBody r) (QueryParam r) (FormData_ r) (Some t).

(** [SetQueryParams] sets every key of the map on the request. *)
Definition SetQueryParams (q : gmap string string) (r : Request) : Request :=
  mkRequest (Method r) (URL r) (Token r) (ReqBody r) (q ∪ QueryParam r) (FormData_ r) (Result r).

(** [SetFormData] does [Set(k, v)] for every entry: the key keeps the one
    value. *)
Definition SetFormData (d : gmap string string) (r : Request) : Request :=
  mkRequest (Method r) (URL r) (Token r) (ReqBody r) (QueryParam r)
            (((λ v, [v]) <$> d) ∪ FormData_ r) (Result r).

(** [SetFormDataFromValues(url.Values{k: vs})] does [Add(k, v)] for every
    [v] of [vs]: the values go after those the key already has.  With an
    empty [vs] nothing is added. *)
Definition SetFormDataFromValues (k : string) (vs : list string) (r : Request) : Request :=
  mkRequest (Method r) (URL r) (Token r) (ReqBody r) (QueryParam r)
            (match vs with
             | [] => FormData_ r
             | _ => <[k := (default [] (FormData_ r !! k) ++ vs)%list]> (FormData_ r)
             end)
            (Result r).

Definition withMethodURL (method url : string) (r : Request) : Request :=
  mkRequest method url (Token r) (ReqBody r) (QueryParam r) (FormData_ r) (Result r).

(** ** The world an operation runs in *)

(** What the transport gives back for a request: the server's answer, or a
    failure to get one. *)
Inductive Reply : Type :=
| Answer (resp : Response)
| Failure (reason : string).

(** The server and the network: the reply may depend on everything sent
    before. *)
Definition Server := list Request -> Request -> Reply.

Record World : Type := mkWorld {
  client : GoKeycloak;   (* the structure the receiver points to *)
  mem : Mem;             (* the cells Go pointers refer to *)
  wire : list Request    (* the requests executed so far, oldest first *)
}.

Definition M (A : Type) : Type := Server -> World -> A * World.

#[export] Instance M_ret : MRet M := λ A a _ w, (a, w).
#[export] Instance M_bind : MBind M :=
  λ A B f c srv w, let '(a, w') := c srv w in f a srv w'.

(** The receiver [g]. *)
Definition receiver : M GoKeycloak := λ _ w, (client w, w).

(** The heap as it is now. *)
Definition memory : M Mem := λ _ w, (mem w, w).

(** [&x] for a variable holding [c], and the allocating helpers: a new cell
    at the end of the heap. *)
Definition alloc {T : Type} (c : cell) : M (pointer T) :=
  λ _ w, (ref (length (mem w)), mkWorld (client w) (mem w ++ [c])%list (wire w)).

(** Modelled from the spec: the helper [StringP] is not under src/; it
    returns a pointer to a fresh copy of its argument. *)
Definition StringP (s : string) : M (pointer string) := alloc (CString s).

(** resty's [Execute]: the request goes on the wire with its verb and URL,
    and the reply comes back as resty's pair of a response and an error. *)
Definition Execute (method url : string) (r : Request) : M (Response * error) :=
  λ srv w,
    let sent := withMethodURL method url r in
    let w' := mkWorld (client w) (mem w) (wire w ++ [sent])%list in
    match srv (wire w) sent with
    | Answer resp => ((resp, None), w')
    | Failure reason => ((noResponse, Some (TransportError reason)), w')
    end.

Definition Get (url : string) (r : Request) := Execute MethodGet url r.
Definition Post (url : string) (r : Request) := Execute MethodPost url r.
Definition Put (url : string) (r : Request) := Execute MethodPut url r.
Definition Delete (url : string) (r : Request) := Execute MethodDelete url r.

(** Modelled from the spec: [GetRequestWithBearerAuth] is not under src/.
    "every call is a fresh request": a new request that carries the bearer
    token and nothing else. *)
Definition GetRequestWithBearerAuth (g : GoKeycloak) (token : string) : Request :=
  mkRequest "" "" token None ∅ ∅ None.

(** The helpers of the repository that other files define.  The URL helpers
    take the realm and the path segments; [GetQueryParams] and [FormData]
    serialize a structure, reading through its pointers; [getID] reads
    the identifier of a created resource off the response. *)
Class Glue : Type := {
  getRealmURL : GoKeycloak -> string -> list string -> string;
  getAdminRealmURL : GoKeycloak -> string -> list string -> string;
  GetQueryParams : Mem -> Params -> gmap string string * error;
  FormData : Mem -> RequestingPartyTokenOptions -> gmap string string;
  getID : Response -> string
}.
Context `{Glue}.

(** The method chains of the source read left to right. *)
Local Notation "r |> f" := (f r) (at level 45, left associativity, only parsing).

(** ** user.go *)

Definition CreateUser (token realm : string) (user : User) : M (Z * string * error) :=
  let errMessage := "could not create user" in
  g ← receiver;
  '(resp, err) ← GetRequestWithBearerAuth g token
                   |> SetBody (OfUser user)
                   |> Post (getAdminRealmURL g realm ["users"]);
  match checkForError resp err errMessage with
  | Some e => mret (StatusCode resp, "", Some e)
  | None => mret (StatusCode resp, getID resp, None)
  end.

Definition DeleteUser (token realm userID : string) : M (Z * error) :=
  let errMessage := "could not delete user" in
  g ← receiver;
  '(resp, err) ← GetRequestWithBearerAuth g token
                   |> Delete (getAdminRealmURL g realm ["users"; userID]);
  mret (StatusCode resp, checkForError resp err errMessage).

Definition GetUserByID (accessToken realm userID : string) : M (Z * Value * error) :=
  let errMessage := "could not get user by id" in
  if bool_decide (userID = "") then
    mret (StatusBadRequest, Nil, errors_Wrap (errors_New "userID shall not be empty") errMessage)
  else
    g ← receiver;
    '(resp, err) ← GetRequestWithBearerAuth g accessToken
                     |> SetResult TUser
                     |> Get (getAdminRealmURL g realm ["users"; userID]);
    let result := resultOf TUser resp in
    match checkForError resp err errMessage with
    | Some e => mret (StatusCode resp, Nil, Some e)
    | None => mret (StatusCode resp, result, None)
    end.

Definition GetUserCount (token realm : string) (params : GetUsersParams) : M (Z * Value * error) :=
  let errMessage := "could not get user count" in
  g ← receiver;
  m ← memory;
  let '(queryParams, err) := GetQueryParams m (OfGetUsersParams params) in
  match err with
  | Some _ => mret (StatusBadRequest, Int 0, errors_Wrap err errMessage)
  | None =>
      '(resp, err) ← GetRequestWithBearerAuth g token
                       |> SetResult TInt
                       |> SetQueryParams queryParams
                       |> Get (getAdminRealmURL g realm ["users"; "count"]);
      let result := resultOf TInt resp in
      match checkForError resp err errMessage with
      | Some e => mret (StatusCode resp, Int (-1), errors_Wrap (Some e) errMessage)
      | None => mret (StatusCode resp, result, None)
      end
  end.

Definition GetUserGroups (token realm userID : string) (params : GetGroupsParams) : M (Z * Value * error) :=
  let errMessage := "could not get user groups" in
  g ← receiver;
  m ← memory;
  let '(queryParams, err) := GetQueryParams m (OfGetGroupsParams params) in
  match err with
  | Some _ => mret (StatusBadRequest, Nil, errors_Wrap err errMessage)
  | None =>
      '(resp, err) ← GetRequestWithBearerAuth g token
                       |> SetResult TGroups
                       |> SetQueryParams queryParams
                       |> Get (getAdminRealmURL g realm ["users"; userID; "groups"]);
      let result := resultOf TGroups resp in
      match checkForError resp err errMessage with
      | Some e => mret (StatusCode resp, Nil, Some e)
      | None => mret (StatusCode resp, result, None)
      end
  end.

Definition GetUsers (token realm : string) (params : GetUsersParams) : M (Z * Value * error) :=
  let errMessage := "could not get users" in
  g ← receiver;
  m ← memory;
  let '(queryParams, err) := GetQueryParams m (OfGetUsersParams params) in
  match err with
  | Some _ => mret (StatusBadRequest, Nil, errors_Wrap err errMessage)
  | None =>
      '(resp, err) ← GetRequestWithBearerAuth g token
                       |> SetResult TUsers
                       |> SetQueryParams queryParams
                       |> Get (getAdminRealmURL g realm ["users"]);
      let result := resultOf TUsers resp in
      match checkForError resp err errMessage with
      | Some e => mret (StatusCode resp, Nil, Some e)
      | None => mret (StatusCode resp, result, None)
      end
  end.

Definition GetUsersByRoleName (token realm roleName : string) (params : GetUsersByRoleParams) : M (Z * Value * error) :=
  let errMessage := "could not get users by role name" in
  g ← receiver;
  m ← memory;
  let '(queryParams, err) := GetQueryParams m (OfGetUsersByRoleParams params) in
  match err with
  | Some _ => mret (StatusBadRequest, Nil, errors_Wrap err errMessage)
  | None =>
      '(resp, err) ← GetRequestWithBearerAuth g token
                       |> SetResult TUsers
                       |> SetQueryParams queryParams
                       |> Get (getAdminRealmURL g realm ["roles"; roleName; "users"]);
      let result := resultOf TUsers resp in
      match checkForError resp err errMessage with
      | Some e => mret (StatusCode resp, Nil, Some e)
      | None => mret (StatusCode resp, result, None)
      end
  end.

(** Here the serialization error goes back as it is, not wrapped. *)
Definition GetUsersByClientRoleName (token realm idOfClient roleName : string) (params : GetUsersByRoleParams) : M (Z * Value * error) :=
  let errMessage := "could not get users by client role name" in
  g ← receiver;
  m ← memory;
  let '(queryParams, err) := GetQueryParams m (OfGetUsersByRoleParams params) in
  match err with
  | Some _ => mret (StatusBadRequest, Nil, err)
  | None =>
      '(resp, err) ← GetRequestWithBearerAuth g token
                       |> SetResult TUsers
                       |> SetQueryParams queryParams
                       |> Get (getAdminRealmURL g realm ["clients"; idOfClient; "roles"; roleName; "users"]);
      let result := resultOf TUsers resp in
      match checkForError resp err errMessage with
      | Some e => mret (StatusCode resp, Nil, Some e)
      | None => mret (StatusCode resp, result, None)
      end
  end.

(** [&password] and [&temporary] are the addresses of the two parameter
    variables, which hold copies of the arguments. *)
Definition SetPassword (token userID realm password : string) (temporary : bool) : M (Z * error) :=
  let errMessage := "could not set password" in
  g ← receiver;
  pPassword ← alloc (CString password);
  pTemporary ← alloc (CBool temporary);
  pType ← StringP "password";
  let requestBody := {| Password := pPassword; Temporary := pTemporary; Type_ := pType |} in
  '(resp, err) ← GetRequestWithBearerAuth g token
                   |> SetBody (OfSetPasswordRequest requestBody)
                   |> Put (getAdminRealmURL g realm ["users"; userID; "reset-password"]);
  mret (StatusCode resp, checkForError resp err errMessage).

Definition UpdateUser (token realm : string) (user : User) : M (Z * error) :=
  let errMessage := "could not update user" in
  g ← receiver;
  m ← memory;
  '(resp, err) ← GetRequestWithBearerAuth g token
                   |> SetBody (OfUser user)
                   |> Put (getAdminRealmURL g realm ["users"; PString m (User_ID user)]);
  mret (StatusCode resp, checkForError resp err errMessage).

Definition AddUserToGroup (token realm userID groupID : string) : M (Z * error) :=
  let errMessage := "could not add user to group" in
  g ← receiver;
  '(resp, err) ← GetRequestWithBearerAuth g token
                   |> Put (getAdminRealmURL g realm ["users"; userID; "groups"; groupID]);
  mret (StatusCode resp, checkForError resp err errMessage).

Definition DeleteUserFromGroup (token realm userID groupID : string) : M (Z * error) :=
  let errMessage := "could not delete user from group" in
  g ← receiver;
  '(resp, err) ← GetRequestWithBearerAuth g token
                   |> Delete (getAdminRealmURL g realm ["users"; userID; "groups"; groupID]);
  mret (StatusCode resp, checkForError resp err errMessage).

Definition GetUserSessions (token realm userID : string) : M (Z * Value * error) :=
  let errMessage := "could not get user sessions" in
  g ← receiver;
  '(resp, err) ← GetRequestWithBearerAuth g token
                   |> SetResult TUserSessions
                   |> Get (getAdminRealmURL g realm ["users"; userID; "sessions"]);
  let res := resultOf TUserSessions resp in
  match checkForError resp err errMessage with
  | Some e => mret (StatusCode resp, Nil, Some e)
  | None => mret (StatusCode resp, res, None)
  end.

Definition GetUserOfflineSessionsForClient (token realm userID idOfClient : string) : M (Z * Value * error) :=
  let errMessage := "could not get user offline sessions for client" in
  g ← receiver;
  '(resp, err) ← GetRequestWithBearerAuth g token
                   |> SetResult TUserSessions
                   |> Get (getAdminRealmURL g realm ["users"; userID; "offline-sessions"; idOfClient]);
  let res := resultOf TUserSessions resp in
  match checkForError resp err errMessage with
  | Some e => mret (StatusCode resp, Nil, Some e)
  | None => mret (StatusCode resp, res, None)
  end.

Definition AddClientRolesToUser (token realm idOfClient userID : string) (roles : list Role) : M (Z * error) :=
  let errMessage := "could not add client role to user" in
  g ← receiver;
  '(resp, err) ← GetRequestWithBearerAuth g token
                   |> SetBody (OfRoles roles)
                   |> Post (getAdminRealmURL g realm ["users"; userID; "role-mappings"; "clients"; idOfClient]);
  mret (StatusCode resp, checkForError resp err errMessage).

(** Deprecated: replaced by [AddClientRolesToUser]. *)
Definition AddClientRoleToUser (token realm idOfClient userID : string) (roles : list Role) : M (Z * error) :=
  AddClientRolesToUser token realm idOfClient userID roles.

Definition DeleteClientRolesFromUser (token realm idOfClient userID : string) (roles : list Role) : M (Z * error) :=
  let errMessage := "could not delete client role from user" in
  g ← receiver;
  '(resp, err) ← GetRequestWithBearerAuth g token
                   |> SetBody (OfRoles roles)
                   |> Delete (getAdminRealmURL g realm ["users"; userID; "role-mappings"; "clients"; idOfClient]);
  mret (StatusCode resp, checkForError resp err errMessage).

(** Deprecated: replaced by [DeleteClientRolesFromUser]. *)
Definition DeleteClientRoleFromUser (token realm idOfClient userID : string) (roles : list Role) : M (Z * error) :=
  DeleteClientRolesFromUser token realm idOfClient userID roles.

(** The last [return] hands back the transport error variable [err], which
    is nil there. *)
Definition GetUserFederatedIdentities (token realm userID : string) : M (Z * Value * error) :=
  let errMessage := "could not get user federated identities" in
  g ← receiver;
  '(resp, err) ← GetRequestWithBearerAuth g token
                   |> SetResult TFederatedIdentities
                   |> Get (getAdminRealmURL g realm ["users"; userID; "federated-identity"]);
  let res := resultOf TFederatedIdentities resp in
  match checkForError resp err errMessage with
  | Some e => mret (StatusCode resp, Nil, Some e)
  | None => mret (StatusCode resp, res, err)
  end.

Definition CreateUserFederatedIdentity (token realm userID providerID : string) (federatedIdentityRep : FederatedIdentityRepresentation) : M (Z * error) :=
  let errMessage := "could not create user federeated identity" in
  g ← receiver;
  '(resp, err) ← GetRequestWithBearerAuth g token
                   |> SetBody (OfFederatedIdentity federatedIdentityRep)
                   |> Post (getAdminRealmURL g realm ["users"; userID; "federated-identity"; providerID]);
  mret (StatusCode resp, checkForError resp err errMessage).

Definition DeleteUserFederatedIdentity (token realm userID providerID : string) : M (Z * error) :=
  let errMessage := "could not delete user federeated identity" in
  g ← receiver;
  '(resp, err) ← GetRequestWithBearerAuth g token
                   |> Delete (getAdminRealmURL g realm ["users"; userID; "federated-identity"; providerID]);
  mret (StatusCode resp, checkForError resp err errMessage).

(** ** The requesting-party and realm-role operations *)

(** [res] is the variable the caller wants the body decoded into; the
    permission values come from dereferencing [options.Permissions]. *)
Definition getRequestingParty (token realm : string) (options : RequestingPartyTokenOptions) (res : target) : M (Response * error) :=
  g ← receiver;
  m ← memory;
  GetRequestWithBearerAuth g token
    |> SetFormData (FormData m options)
    |> SetFormDataFromValues "permission" (PStringSlice m (Permissions options))
    |> SetResult res
    |> Post (getRealmURL g realm [openIDConnect g; "token"]).

(** [options] is the operation's own copy of the caller's structure; the
    assignment changes the copy's field to a new pointer. *)
Definition GetRequestingPartyPermissions (token realm : string) (options : RequestingPartyTokenOptions) : M (Z * Value * error) :=
  let errMessage := "could not get requesting party token" in
  p ← StringP "permissions";
  let options := set_ResponseMode p options in
  '(resp, err) ← getRequestingParty token realm options TPermissions;
  let res := resultOf TPermissions resp in
  match checkForError resp err errMessage with
  | Some e => mret (StatusCode resp, Nil, Some e)
  | None => mret (StatusCode resp, res, None)
  end.

Definition GetRequestingPartyPermissionDecision (token realm : string) (options : RequestingPartyTokenOptions) : M (Z * Value * error) :=
  let errMessage := "could not get requesting party token" in
  p ← StringP "decision";
  let options := set_ResponseMode p options in
  '(resp, err) ← getRequestingParty token realm options TPermissionDecision;
  let res := resultOf TPermissionDecision resp in
  match checkForError resp err errMessage with
  | Some e => mret (StatusCode resp, Nil, Some e)
  | None => mret (StatusCode resp, res, None)
  end.

Definition CreateRealmRole (token realm : string) (role : Role) : M (Z * string * error) :=
  let errMessage := "could not create realm role" in
  g ← receiver;
  '(resp, err) ← GetRequestWithBearerAuth g token
                   |> SetBody (OfRole role)
                   |> Post (getAdminRealmURL g realm ["roles"]);
  match checkForError resp err errMessage with
  | Some e => mret (StatusCode resp, "", Some e)
  | None => mret (StatusCode resp, getID resp, None)
  end.

Definition GetRealmRole (token realm roleName : string) : M (Z * Value * error) :=
  let errMessage := "could not get realm role" in
  g ← receiver;
  '(resp, err) ← GetRequestWithBearerAuth g token
                   |> SetResult TRole
                   |> Get (getAdminRealmURL g realm ["roles"; roleName]);
  let result := resultOf TRole resp in
  match checkForError resp err errMessage with
  | Some e => mret (StatusCode resp, Nil, Some e)
  | None => mret (StatusCode resp, result, None)
  end.

Definition GetRealmRoleByID (token realm roleID : string) : M (Z * Value * error) :=
  let errMessage := "could not get realm role" in
  g ← receiver;
  '(resp, err) ← GetRequestWithBearerAuth g token
                   |> SetResult TRole
                   |> Get (getAdminRealmURL g realm ["roles-by-id"; roleID]);
  let result := resultOf TRole resp in
  match checkForError resp err errMessage with
  | Some e => mret (StatusCode resp, Nil, Some e)
  | None => mret (StatusCode resp, result, None)
  end.

(** The one operation that answers a serialization failure with 500. *)
Definition GetRealmRoles (token realm : string) (params : GetRoleParams) : M (Z * Value * error) :=
  let errMessage := "could not get realm roles" in
  g ← receiver;
  m ← memory;
  let '(queryParams, err) := GetQueryParams m (OfGetRoleParams params) in
  match err with
  | Some _ => mret (StatusInternalServerError, Nil, errors_Wrap err errMessage)
  | None =>
      '(resp, err) ← GetRequestWithBearerAuth g token
                       |> SetResult TRoles
                       |> SetQueryParams queryParams
                       |> Get (getAdminRealmURL g realm ["roles"]);
      let result := resultOf TRoles resp in
      match checkForError resp err errMessage with
      | Some e => mret (StatusCode resp, Nil, Some e)
      | None => mret (StatusCode resp, result, None)
      end
  end.

Definition GetRealmRolesByUserID (token realm userID : string) : M (Z * Value * error) :=
  let errMessage := "could not get realm roles by user id" in
  g ← receiver;
  '(resp, err) ← GetRequestWithBearerAuth g token
                   |> SetResult TRoles
                   |> Get (getAdminRealmURL g realm ["users"; userID; "role-mappings"; "realm"]);
  let result := resultOf TRoles resp in
  match checkForError resp err errMessage with
  | Some e => mret (StatusCode resp, Nil, Some e)
  | None => mret (StatusCode resp, result, None)
  end.

Definition GetRealmRolesByGroupID (token realm groupID : string) : M (Z * Value * error) :=
  let errMessage := "could not get realm roles by group id" in
  g ← receiver;
  '(resp, err) ← GetRequestWithBearerAuth g token
                   |> SetResult TRoles
                   |> Get (getAdminRealmURL g realm ["groups"; groupID; "role-mappings"; "realm"]);
  let result := resultOf TRoles resp in
  match checkForError resp err errMessage with
  | Some e => mret (StatusCode resp, Nil, Some e)
  | None => mret (StatusCode resp, result, None)
  end.

Definition UpdateRealmRole (token realm roleName : string) (role : Role) : M (Z * error) :=
  let errMessage := "could not update realm role" in
  g ← receiver;
  '(resp, err) ← GetRequestWithBearerAuth g token
                   |> SetBody (OfRole role)
                   |> Put (getAdminRealmURL g realm ["roles"; roleName]);
  mret (StatusCode resp, checkForError resp err errMessage).

Definition UpdateRealmRoleByID (token realm roleID : string) (role : Role) : M (Z * error) :=
  let errMessage := "could not update realm role" in
  g ← receiver;
  '(resp, err) ← GetRequestWithBearerAuth g token
                   |> SetBody (OfRole role)
                   |> Put (getAdminRealmURL g realm ["roles-by-id"; roleID]);
  mret (StatusCode resp, checkForError resp err errMessage).

Definition DeleteRealmRole (token realm roleName : string) : M (Z * error) :=
  let errMessage := "could not delete realm role" in
  g ← receiver;
  '(resp, err) ← GetRequestWithBearerAuth g token
                   |> Delete (getAdminRealmURL g realm ["roles"; roleName]);
  mret (StatusCode resp, checkForError resp err errMessage).

Definition AddRealmRoleToUser (token realm userID : string) (roles : list Role) : M (Z * error) :=
  let errMessage := "could not add realm role to user" in
  g ← receiver;
  '(resp, err) ← GetRequestWithBearerAuth g token
                   |> SetBody (OfRoles roles)
                   |> Post (getAdminRealmURL g realm ["users"; userID; "role-mappings"; "realm"]);
  mret (StatusCode resp, checkForError resp err errMessage).

Definition DeleteRealmRoleFromUser (token realm userID : string) (roles : list Role) : M (Z * error) :=
  let errMessage := "could not delete realm role from user" in
  g ← receiver;
  '(resp, err) ← GetRequestWithBearerAuth g token
                   |> SetBody (OfRoles roles)
                   |> Delete (getAdminRealmURL g realm ["users"; userID; "role-mappings"; "realm"]);
  mret (StatusCode resp, checkForError resp err errMessage).

Definition AddRealmRoleToGroup (token realm groupID : string) (roles : list Role) : M (Z * error) :=
  let errMessage := "could not add realm role to group" in
  g ← receiver;
  '(resp, err) ← GetRequestWithBearerAuth g token
                   |> SetBody (OfRoles roles)
                   |> Post (getAdminRealmURL g realm ["groups"; groupID; "role-mappings"; "realm"]);
  mret (StatusCode resp, checkForError resp err errMessage).

Definition DeleteRealmRoleFromGroup (token realm groupID : string) (roles : list Role) : M (Z * error) :=
  let errMessage := "could not delete realm role from group" in
  g ← receiver;
  '(resp, err) ← GetRequestWithBearerAuth g token
                   |> SetBody (OfRoles roles)
                   |> Delete (getAdminRealmURL g realm ["groups"; groupID; "role-mappings"; "realm"]);
  mret (StatusCode resp, checkForError resp err errMessage).

Definition AddRealmRoleComposite (token realm roleName : string) (roles : list Role) : M (Z * error) :=
  let errMessage := "could not add realm role composite" in
  g ← receiver;
  '(resp, err) ← GetRequestWithBearerAuth g token
                   |> SetBody (OfRoles roles)
                   |> Post (getAdminRealmURL g realm ["roles"; roleName; "composites"]);
  mret (StatusCode resp, checkForError resp err errMessage).

Definition DeleteRealmRoleComposite (token realm roleName : string) (roles : list Role) : M (Z * error) :=
  let errMessage := "could not delete realm role composite" in
  g ← receiver;
  '(resp, err) ← GetRequestWithBearerAuth g token
                   |> SetBody (OfRoles roles)
                   |> Delete (getAdminRealmURL g realm ["roles"; roleName; "composites"]);
  mret (StatusCode resp, checkForError resp err errMessage).

Definition GetCompositeRealmRoles (token realm roleName : string) : M (Z * Value * error) :=
  let errMessage := "could not get composite realm roles by role" in
  g ← receiver;
  '(resp, err) ← GetRequestWithBearerAuth g token
                   |> SetResult TRoles
                   |> Get (getAdminRealmURL g realm ["roles"; roleName; "composites"]);
  let result := resultOf TRoles resp in
  match checkForError resp err errMessage with
  | Some e => mret (StatusCode resp, Nil, Some e)
  | None => mret (StatusCode resp, result, None)
  end.

Definition GetCompositeRolesByRoleID (token realm roleID : string) : M (Z * Value * error) :=
  let errMessage := "could not get composite client roles by role id" in
  g ← receiver;
  '(resp, err) ← GetRequestWithBearerAuth g token
                   |> SetResult TRoles
                   |> Get (getAdminRealmURL g realm ["roles-by-id"; roleID; "composites"]);
  let result := resultOf TRoles resp in
  match checkForError resp err errMessage with
  | Some e => mret (StatusCode resp, Nil, Some e)
  | None => mret (StatusCode resp, result, None)
  end.

Definition GetCompositeRealmRolesByRoleID (token realm roleID : string) : M (Z * Value * error) :=
  let errMessage := "could not get composite client roles by role id" in
  g ← receiver;
  '(resp, err) ← GetRequestWithBearerAuth g token
                   |> SetResult TRoles
                   |> Get (getAdminRealmURL g realm ["roles-by-id"; roleID; "composites"; "realm"]);
  let result := resultOf TRoles resp in
  match checkForError resp err errMessage with
  | Some e => mret (StatusCode resp, Nil, Some e)
  | None => mret (StatusCode resp, result, None)
  end.

Definition GetCompositeRealmRolesByUserID (token realm userID : string) : M (Z * Value * error) :=
  let errMessage := "could not get composite client roles by user id" in
  g ← receiver;
  '(resp, err) ← GetRequestWithBearerAuth g token
                   |> SetResult TRoles
                   |> Get (getAdminRealmURL g realm ["users"; userID; "role-mappings"; "realm"; "composite"]);
  let result := resultOf TRoles resp in
  match checkForError resp err errMessage with
  | Some e => mret (StatusCode resp, Nil, Some e)
  | None => mret (StatusCode resp, result, None)
  end.

Definition GetCompositeRealmRolesByGroupID (token realm groupID : string) : M (Z * Value * error) :=
  let errMessage := "could not get composite client roles by user id" in
  g ← receiver;
  '(resp, err) ← GetRequestWithBearerAuth g token
                   |> SetResult TRoles
                   |> Get (getAdminRealmURL g realm ["groups"; groupID; "role-mappings"; "realm"; "composite"]);
  let result := resultOf TRoles resp in
  match checkForError resp err errMessage with
  | Some e => mret (StatusCode resp, Nil, Some e)
  | None => mret (StatusCode resp, result, None)
  end.

Definition GetAvailableRealmRolesByUserID (token realm userID : string) : M (Z * Value * error) :=
  let errMessage := "could not get available client roles by user id" in
  g ← receiver;
  '(resp, err) ← GetRequestWithBearerAuth g token
                   |> SetResult TRoles
                   |> Get (getAdminRealmURL g realm ["users"; userID; "role-mappings"; "realm"; "available"]);
  let result := resultOf TRoles resp in
  match checkForError resp err errMessage with
  | Some e => mret (StatusCode resp, Nil, Some e)
  | None => mret (StatusCode resp, result, None)
  end.

Definition GetAvailableRealmRolesByGroupID (token realm groupID : string) : M (Z * Value * error) :=
  let errMessage := "could not get available client roles by user id" in
  g ← receiver;
  '(resp, err) ← GetRequestWithBearerAuth g token
                   |> SetResult TRoles
                   |> Get (getAdminRealmURL g realm ["groups"; groupID; "role-mappings"; "realm"; "available"]);
  let result := resultOf TRoles resp in
  match checkForError resp err errMessage with
  | Some e => mret (StatusCode resp, Nil, Some e)
  | None => mret (StatusCode resp, result, None)
  end.

(** Modelled from the spec: [GetRequestingPartyToken] is not under src/;
    [EvaluatePermission] calls it and the test file uses it.  Like its two
    siblings above it is "parameter marshaling plus one HTTP call and one
    error check": the call goes through [getRequestingParty], the body is
    decoded into a [JWT], and a failure is wrapped with the description the
    siblings use. *)
Definition GetRequestingPartyToken (token realm : string) (options : RequestingPartyTokenOptions) : M (Z * Value * error) :=
  let errMessage := "could not get requesting party token" in
  '(resp, err) ← getRequestingParty token realm options TJWT;
  let res := resultOf TJWT resp in
  match checkForError resp err errMessage with
  | Some e => mret (StatusCode resp, Nil, Some e)
  | None => mret (StatusCode resp, res, None)
  end.

(** The four [&x] are addresses of the operation's own variables. *)
Definition EvaluatePermission (userToken realm audience response_mode : string) (permissions : list string) : M (Z * Value * error) :=
  pGrant ← alloc (CString "urn:ietf:params:oauth:grant-type:uma-ticket");
  pAudience ← alloc (CString audience);
  pMode ← alloc (CString response_mode);
  pPermissions ← alloc (CStringSlice permissions);
  let options := {| GrantType := pGrant;
                    Audience := pAudience;
                    ResponseMode := pMode;
                    Permissions := pPermissions |} in
  '(statusCode, jwt, err) ← GetRequestingPartyToken userToken realm options;
  match err with
  | Some _ => mret (statusCode, Nil, err)
  | None => mret (statusCode, jwt, None)
  end.

(** ** Invoking an operation

    One constructor per public operation, with the arguments of the Go
    method (the context aside); [invoke] runs the method and puts its
    return values in one shape. *)
Inductive Operation : Type :=
| Op_CreateUser (token realm : string) (user : User)
| Op_DeleteUser (token realm userID : string)
| Op_GetUserByID (accessToken realm userID : string)
| Op_GetUserCount (token realm : string) (params : GetUsersParams)
| Op_GetUserGroups (token realm userID : string) (params : GetGroupsParams)
| Op_GetUsers (token realm : string) (params : GetUsersParams)
| Op_GetUsersByRoleName (token realm roleName : string) (params : GetUsersByRoleParams)
| Op_GetUsersByClientRoleName (token realm idOfClient roleName : string) (params : GetUsersByRoleParams)
| Op_SetPassword (token userID realm password : string) (temporary : bool)
| Op_UpdateUser (token realm : string) (user : User)
| Op_AddUserToGroup (token realm userID groupID : string)
| Op_DeleteUserFromGroup (token realm userID groupID : string)
| Op_GetUserSessions (token realm userID : string)
| Op_GetUserOfflineSessionsForClient (token realm userID idOfClient : string)
| Op_AddClientRolesToUser (token realm idOfClient userID : string) (roles : list Role)
| Op_AddClientRoleToUser (token realm idOfClient userID : string) (roles : list Role)
| Op_DeleteClientRolesFromUser (token realm idOfClient userID : string) (roles : list Role)
| Op_DeleteClientRoleFromUser (token realm idOfClient userID : string) (roles : list Role)
| Op_GetUserFederatedIdentities (token realm userID : string)
| Op_CreateUserFederatedIdentity (token realm userID providerID : string) (federatedIdentityRep : FederatedIdentityRepresentation)
| Op_DeleteUserFederatedIdentity (token realm userID providerID : string)
| Op_GetRequestingPartyPermissions (token realm : string) (options : RequestingPartyTokenOptions)
| Op_GetRequestingPartyPermissionDecision (token realm : string) (options : RequestingPartyTokenOptions)
| Op_CreateRealmRole (token realm : string) (role : Role)
| Op_GetRealmRole (token realm roleName : string)
| Op_GetRealmRoleByID (token realm roleID : string)
| Op_GetRealmRoles (token realm : string) (params : GetRoleParams)
| Op_GetRealmRolesByUserID (token realm userID : string)
| Op_GetRealmRolesByGroupID (token realm groupID : string)
| Op_UpdateRealmRole (token realm roleName : string) (role : Role)
| Op_UpdateRealmRoleByID (token realm roleID : string) (role : Role)
| Op_DeleteRealmRole (token realm roleName : string)
| Op_AddRealmRoleToUser (token realm userID : string) (roles : list Role)
| Op_DeleteRealmRoleFromUser (token realm userID : string) (roles : list Role)
| Op_AddRealmRoleToGroup (token realm groupID : string) (roles : list Role)
| Op_DeleteRealmRoleFromGroup (token realm groupID : string) (roles : list Role)
| Op_AddRealmRoleComposite (token realm roleName : string) (roles : list Role)
| Op_DeleteRealmRoleComposite (token realm roleName : string) (roles : list Role)
| Op_GetCompositeRealmRoles (token realm roleName : string)
| Op_GetCompositeRolesByRoleID (token realm roleID : string)
| Op_GetCompositeRealmRolesByRoleID (token realm roleID : string)
| Op_GetCompositeRealmRolesByUserID (token realm userID : string)
| Op_GetCompositeRealmRolesByGroupID (token realm groupID : string)
| Op_GetAvailableRealmRolesByUserID (token realm userID : string)
| Op_GetAvailableRealmRolesByGroupID (token realm groupID : string)
| Op_GetRequestingPartyToken (token realm : string) (options : RequestingPartyTokenOptions)
| Op_EvaluatePermission (userToken realm audience response_mode : string) (permissions : list string).

Record Outcome : Type := mkOutcome {
  status : Z;              (* the first return value *)
  value : option Value;    (* the middle return value, when there is one *)
  failure : error          (* the last return value *)
}.

Definition two (c : M (Z * error)) : M Outcome :=
  '(s, e) ← c; mret (mkOutcome s None e).

Definition three (c : M (Z * Value * error)) : M Outcome :=
  '(s, v, e) ← c; mret (mkOutcome s (Some v) e).

Definition threeStr (c : M (Z * string * error)) : M Outcome :=
  '(s, v, e) ← c; mret (mkOutcome s (Some (Str v)) e).

Definition invoke (op : Operation) : M Outcome :=
  match op with
  | Op_CreateUser token realm user => threeStr (CreateUser token realm user)
  | Op_DeleteUser token realm userID => two (DeleteUser token realm userID)
  | Op_GetUserByID accessToken realm userID => three (GetUserByID accessToken realm userID)
  | Op_GetUserCount token realm params => three (GetUserCount token realm params)
  | Op_GetUserGroups token realm userID params => three (GetUserGroups token realm userID params)
  | Op_GetUsers token realm params => three (GetUsers token realm params)
  | Op_GetUsersByRoleName token realm roleName params => three (GetUsersByRoleName token realm roleName params)
  | Op_GetUsersByClientRoleName token realm idOfClient roleName params => three (GetUsersByClientRoleName token realm idOfClient roleName params)
  | Op_SetPassword token userID realm password temporary => two (SetPassword token userID realm password temporary)
  | Op_UpdateUser token realm user => two (UpdateUser token realm user)
  | Op_AddUserToGroup token realm userID groupID => two (AddUserToGroup token realm userID groupID)
  | Op_DeleteUserFromGroup token realm userID groupID => two (DeleteUserFromGroup token realm userID groupID)
  | Op_GetUserSessions token realm userID => three (GetUserSessions token realm userID)
  | Op_GetUserOfflineSessionsForClient token realm userID idOfClient => three (GetUserOfflineSessionsForClient token realm userID idOfClient)
  | Op_AddClientRolesToUser token realm idOfClient userID roles => two (AddClientRolesToUser token realm idOfClient userID roles)
  | Op_AddClientRoleToUser token realm idOfClient userID roles => two (AddClientRoleToUser token realm idOfClient userID roles)
  | Op_DeleteClientRolesFromUser token realm idOfClient userID roles => two (DeleteClientRolesFromUser token realm idOfClient userID roles)
  | Op_DeleteClientRoleFromUser token realm idOfClient userID roles => two (DeleteClientRoleFromUser token realm idOfClient userID roles)
  | Op_GetUserFederatedIdentities token realm userID => three (GetUserFederatedIdentities token realm userID)
  | Op_CreateUserFederatedIdentity token realm userID providerID federatedIdentityRep => two (CreateUserFederatedIdentity token realm userID providerID federatedIdentityRep)
  | Op_DeleteUserFederatedIdentity token realm userID providerID => two (DeleteUserFederatedIdentity token realm userID providerID)
  | Op_GetRequestingPartyPermissions token realm options => three (GetRequestingPartyPermissions token realm options)
  | Op_GetRequestingPartyPermissionDecision token realm options => three (GetRequestingPartyPermissionDecision token realm options)
  | Op_CreateRealmRole token realm role => threeStr (CreateRealmRole token realm role)
  | Op_GetRealmRole token realm roleName => three (GetRealmRole token realm roleName)
  | Op_GetRealmRoleByID token realm roleID => three (GetRealmRoleByID token realm roleID)
  | Op_GetRealmRoles token realm params => three (GetRealmRoles token realm params)
  | Op_GetRealmRolesByUserID token realm userID => three (GetRealmRolesByUserID token realm userID)
  | Op_GetRealmRolesByGroupID token realm groupID => three (GetRealmRolesByGroupID token realm groupID)
  | Op_UpdateRealmRole token realm roleName role => two (UpdateRealmRole token realm roleName role)
  | Op_UpdateRealmRoleByID token realm roleID role => two (UpdateRealmRoleByID token realm roleID role)
  | Op_DeleteRealmRole token realm roleName => two (DeleteRealmRole token realm roleName)
  | Op_AddRealmRoleToUser token realm userID roles => two (AddRealmRoleToUser token realm userID roles)
  | Op_DeleteRealmRoleFromUser token realm userID roles => two (DeleteRealmRoleFromUser token realm userID roles)
  | Op_AddRealmRoleToGroup token realm groupID roles => two (AddRealmRoleToGroup token realm groupID roles)
  | Op_DeleteRealmRoleFromGroup token realm groupID roles => two (DeleteRealmRoleFromGroup token realm groupID roles)
  | Op_AddRealmRoleComposite token realm roleName roles => two (AddRealmRoleComposite token realm roleName roles)
  | Op_DeleteRealmRoleComposite token realm roleName roles => two (DeleteRealmRoleComposite token realm roleName roles)
  | Op_GetCompositeRealmRoles token realm roleName => three (GetCompositeRealmRoles token realm roleName)
  | Op_GetCompositeRolesByRoleID token realm roleID => three (GetCompositeRolesByRoleID token realm roleID)
  | Op_GetCompositeRealmRolesByRoleID token realm roleID => three (GetCompositeRealmRolesByRoleID token realm roleID)
  | Op_GetCompositeRealmRolesByUserID token realm userID => three (GetCompositeRealmRolesByUserID token realm userID)
  | Op_GetCompositeRealmRolesByGroupID token realm groupID => three (GetCompositeRealmRolesByGroupID token realm groupID)
  | Op_GetAvailableRealmRolesByUserID token realm userID => three (GetAvailableRealmRolesByUserID token realm userID)
  | Op_GetAvailableRealmRolesByGroupID token realm groupID => three (GetAvailableRealmRolesByGroupID token realm groupID)
  | Op_GetRequestingPartyToken token realm options => three (GetRequestingPartyToken token realm options)
  | Op_EvaluatePermission userToken realm audience response_mode permissions => three (EvaluatePermission userToken realm audience response_mode permissions)
  end.

(** ** The vocabulary of the properties *)

(** The requests an invocation put on the wire. *)
Definition sent (op : Operation) (srv : Server) (w : World) : list Request :=
  drop (length (wire w)) (wire (invoke op srv w).2).

(** resty's view of a reply: the response, and the transport error. *)
Definition respOf (rp : Reply) : Response :=
  match rp with Answer resp => resp | Failure _ => noResponse end.


(** "a non-2xx status or a transport failure". *)
Definition failed (rp : Reply) : bool :=
  match rp with Answer resp => negb (IsSuccess resp) | Failure _ => true end.

(** The [GetUserByID] call with an empty [userID]. *)
Definition emptyUserID (op : Operation) : bool :=
  match op with
  | Op_GetUserByID _ _ userID => bool_decide (userID = "")
  | _ => false
  end.

(** The params structure of the operations that take one. *)
Definition paramsOf (op : Operation) : option Params :=
  match op with
  | Op_GetUserCount _ _ params => Some (OfGetUsersParams params)
  | Op_GetUserGroups _ _ _ params => Some (OfGetGroupsParams params)
  | Op_GetUsers _ _ params => Some (OfGetUsersParams params)
  | Op_GetUsersByRoleName _ _ _ params => Some (OfGetUsersByRoleParams params)
  | Op_GetUsersByClientRoleName _ _ _ _ params => Some (OfGetUsersByRoleParams params)
  | Op_GetRealmRoles _ _ params => Some (OfGetRoleParams params)
  | _ => None
  end.

(** "local query-parameter serialization failed". *)
Definition serializationFailed (m : Mem) (op : Operation) : bool :=
  match paramsOf op with
  | Some p => bool_decide (is_Some (GetQueryParams m p).2)
  | None => false
  end.

(** The description each operation wraps a failure with: its [errMessage]
    constant; for [EvaluatePermission], which has none of its own, that of
    the call it delegates to. *)
Definition description (op : Operation) : string :=
  match op with
  | Op_CreateUser _ _ _ => "could not create user"
  | Op_DeleteUser _ _ _ => "could not delete user"
  | Op_GetUserByID _ _ _ => "could not get user by id"
  | Op_GetUserCount _ _ _ => "could not get user count"
  | Op_GetUserGroups _ _ _ _ => "could not get user groups"
  | Op_GetUsers _ _ _ => "could not get users"
  | Op_GetUsersByRoleName _ _ _ _ => "could not get users by role name"
  | Op_GetUsersByClientRoleName _ _ _ _ _ => "could not get users by client role name"
  | Op_SetPassword _ _ _ _ _ => "could not set password"
  | Op_UpdateUser _ _ _ => "could not update user"
  | Op_AddUserToGroup _ _ _ _ => "could not add user to group"
  | Op_DeleteUserFromGroup _ _ _ _ => "could not delete user from group"
  | Op_GetUserSessions _ _ _ => "could not get user sessions"
  | Op_GetUserOfflineSessionsForClient _ _ _ _ => "could not get user offline sessions for client"
  | Op_AddClientRolesToUser _ _ _ _ _ => "could not add client role to user"
  | Op_AddClientRoleToUser _ _ _ _ _ => "could not add client role to user"
  | Op_DeleteClientRolesFromUser _ _ _ _ _ => "could not delete client role from user"
  | Op_DeleteClientRoleFromUser _ _ _ _ _ => "could not delete client role from user"
  | Op_GetUserFederatedIdentities _ _ _ => "could not get user federated identities"
  | Op_CreateUserFederatedIdentity _ _ _ _ _ => "could not create user federeated identity"
  | Op_DeleteUserFederatedIdentity _ _ _ _ => "could not delete user federeated identity"
  | Op_GetRequestingPartyPermissions _ _ _ => "could not get requesting party token"
  | Op_GetRequestingPartyPermissionDecision _ _ _ => "could not get requesting party token"
  | Op_CreateRealmRole _ _ _ => "could not create realm role"
  | Op_GetRealmRole _ _ _ => "could not get realm role"
  | Op_GetRealmRoleByID _ _ _ => "could not get realm role"
  | Op_GetRealmRoles _ _ _ => "could not get realm roles"
  | Op_GetRealmRolesByUserID _ _ _ => "could not get realm roles by user id"
  | Op_GetRealmRolesByGroupID _ _ _ => "could not get realm roles by group id"
  | Op_UpdateRealmRole _ _ _ _ => "could not update realm role"
  | Op_UpdateRealmRoleByID _ _ _ _ => "could not update realm role"
  | Op_DeleteRealmRole _ _ _ => "could not delete realm role"
  | Op_AddRealmRoleToUser _ _ _ _ => "could not add realm role to user"
  | Op_DeleteRealmRoleFromUser _ _ _ _ => "could not delete realm role from user"
  | Op_AddRealmRoleToGroup _ _ _ _ => "could not add realm role to group"
  | Op_DeleteRealmRoleFromGroup _ _ _ _ => "could not delete realm role from group"
  | Op_AddRealmRoleComposite _ _ _ _ => "could not add realm role composite"
  | Op_DeleteRealmRoleComposite _ _ _ _ => "could not delete realm role composite"
  | Op_GetCompositeRealmRoles _ _ _ => "could not get composite realm roles by role"
  | Op_GetCompositeRolesByRoleID _ _ _ => "could not get composite client roles by role id"
  | Op_GetCompositeRealmRolesByRoleID _ _ _ => "could not get composite client roles by role id"
  | Op_GetCompositeRealmRolesByUserID _ _ _ => "could not get composite client roles by user id"
  | Op_GetCompositeRealmRolesByGroupID _ _ _ => "could not get composite client roles by user id"
  | Op_GetAvailableRealmRolesByUserID _ _ _ => "could not get available client roles by user id"
  | Op_GetAvailableRealmRolesByGroupID _ _ _ => "could not get available client roles by user id"
  | Op_GetRequestingPartyToken _ _ _ => "could not get requesting party token"
  | Op_EvaluatePermission _ _ _ _ _ => "could not get requesting party token"
  end.

(** The endpoint catalogue: the verb and the URL of each operation, from
    its realm and path arguments. *)
Definition endpoint (g : GoKeycloak) (m : Mem) (op : Operation) : string * string :=
  match op with
  | Op_CreateUser _ realm _ => (MethodPost, getAdminRealmURL g realm ["users"])
  | Op_DeleteUser _ realm userID => (MethodDelete, getAdminRealmURL g realm ["users"; userID])
  | Op_GetUserByID _ realm userID => (MethodGet, getAdminRealmURL g realm ["users"; userID])
  | Op_GetUserCount _ realm _ => (MethodGet, getAdminRealmURL g realm ["users"; "count"])
  | Op_GetUserGroups _ realm userID _ => (MethodGet, getAdminRealmURL g realm ["users"; userID; "groups"])
  | Op_GetUsers _ realm _ => (MethodGet, getAdminRealmURL g realm ["users"])
  | Op_GetUsersByRoleName _ realm roleName _ => (MethodGet, getAdminRealmURL g realm ["roles"; roleName; "users"])
  | Op_GetUsersByClientRoleName _ realm idOfClient roleName _ => (MethodGet, getAdminRealmURL g realm ["clients"; idOfClient; "roles"; roleName; "users"])
  | Op_SetPassword _ userID realm _ _ => (MethodPut, getAdminRealmURL g realm ["users"; userID; "reset-password"])
  | Op_UpdateUser _ realm user => (MethodPut, getAdminRealmURL g realm ["users"; PString m (User_ID user)])
  | Op_AddUserToGroup _ realm userID groupID => (MethodPut, getAdminRealmURL g realm ["users"; userID; "groups"; groupID])
  | Op_DeleteUserFromGroup _ realm userID groupID => (MethodDelete, getAdminRealmURL g realm ["users"; userID; "groups"; groupID])
  | Op_GetUserSessions _ realm userID => (MethodGet, getAdminRealmURL g realm ["users"; userID; "sessions"])
  | Op_GetUserOfflineSessionsForClient _ realm userID idOfClient => (MethodGet, getAdminRealmURL g realm ["users"; userID; "offline-sessions"; idOfClient])
  | Op_AddClientRolesToUser _ realm idOfClient userID _ => (MethodPost, getAdminRealmURL g realm ["users"; userID; "role-mappings"; "clients"; idOfClient])
  | Op_AddClientRoleToUser _ realm idOfClient userID _ => (MethodPost, getAdminRealmURL g realm ["users"; userID; "role-mappings"; "clients"; idOfClient])
  | Op_DeleteClientRolesFromUser _ realm idOfClient userID _ => (MethodDelete, getAdminRealmURL g realm ["users"; userID; "role-mappings"; "clients"; idOfClient])
  | Op_DeleteClientRoleFromUser _ realm idOfClient userID _ => (MethodDelete, getAdminRealmURL g realm ["users"; userID; "role-mappings"; "clients"; idOfClient])
  | Op_GetUserFederatedIdentities _ realm userID => (MethodGet, getAdminRealmURL g realm ["users"; userID; "federated-identity"])
  | Op_CreateUserFederatedIdentity _ realm userID providerID _ => (MethodPost, getAdminRealmURL g realm ["users"; userID; "federated-identity"; providerID])
  | Op_DeleteUserFederatedIdentity _ realm userID providerID => (MethodDelete, getAdminRealmURL g realm ["users"; userID; "federated-identity"; providerID])
  | Op_GetRequestingPartyPermissions _ realm _ => (MethodPost, getRealmURL g realm [openIDConnect g; "token"])
  | Op_GetRequestingPartyPermissionDecision _ realm _ => (MethodPost, getRealmURL g realm [openIDConnect g; "token"])
  | Op_CreateRealmRole _ realm _ => (MethodPost, getAdminRealmURL g realm ["roles"])
  | Op_GetRealmRole _ realm roleName => (MethodGet, getAdminRealmURL g realm ["roles"; roleName])
  | Op_GetRealmRoleByID _ realm roleID => (MethodGet, getAdminRealmURL g realm ["roles-by-id"; roleID])
  | Op_GetRealmRoles _ realm _ => (MethodGet, getAdminRealmURL g realm ["roles"])
  | Op_GetRealmRolesByUserID _ realm userID => (MethodGet, getAdminRealmURL g realm ["users"; userID; "role-mappings"; "realm"])
  | Op_GetRealmRolesByGroupID _ realm groupID => (MethodGet, getAdminRealmURL g realm ["groups"; groupID; "role-mappings"; "realm"])
  | Op_UpdateRealmRole _ realm roleName _ => (MethodPut, getAdminRealmURL g realm ["roles"; roleName])
  | Op_UpdateRealmRoleByID _ realm roleID _ => (MethodPut, getAdminRealmURL g realm ["roles-by-id"; roleID])
  | Op_DeleteRealmRole _ realm roleName => (MethodDelete, getAdminRealmURL g realm ["roles"; roleName])
  | Op_AddRealmRoleToUser _ realm userID _ => (MethodPost, getAdminRealmURL g realm ["users"; userID; "role-mappings"; "realm"])
  | Op_DeleteRealmRoleFromUser _ realm userID _ => (MethodDelete, getAdminRealmURL g realm ["users"; userID; "role-mappings"; "realm"])
  | Op_AddRealmRoleToGroup _ realm groupID _ => (MethodPost, getAdminRealmURL g realm ["groups"; groupID; "role-mappings"; "realm"])
  | Op_DeleteRealmRoleFromGroup _ realm groupID _ => (MethodDelete, getAdminRealmURL g realm ["groups"; groupID; "role-mappings"; "realm"])
  | Op_AddRealmRoleComposite _ realm roleName _ => (MethodPost, getAdminRealmURL g realm ["roles"; roleName; "composites"])
  | Op_DeleteRealmRoleComposite _ realm roleName _ => (MethodDelete, getAdminRealmURL g realm ["roles"; roleName; "composites"])
  | Op_GetCompositeRealmRoles _ realm roleName => (MethodGet, getAdminRealmURL g realm ["roles"; roleName; "composites"])
  | Op_GetCompositeRolesByRoleID _ realm roleID => (MethodGet, getAdminRealmURL g realm ["roles-by-id"; roleID; "composites"])
  | Op_GetCompositeRealmRolesByRoleID _ realm roleID => (MethodGet, getAdminRealmURL g realm ["roles-by-id"; roleID; "composites"; "realm"])
  | Op_GetCompositeRealmRolesByUserID _ realm userID => (MethodGet, getAdminRealmURL g realm ["users"; userID; "role-mappings"; "realm"; "composite"])
  | Op_GetCompositeRealmRolesByGroupID _ realm groupID => (MethodGet, getAdminRealmURL g realm ["groups"; groupID; "role-mappings"; "realm"; "composite"])
  | Op_GetAvailableRealmRolesByUserID _ realm userID => (MethodGet, getAdminRealmURL g realm ["users"; userID; "role-mappings"; "realm"; "available"])
  | Op_GetAvailableRealmRolesByGroupID _ realm groupID => (MethodGet, getAdminRealmURL g realm ["groups"; groupID; "role-mappings"; "realm"; "available"])
  | Op_GetRequestingPartyToken _ realm _ => (MethodPost, getRealmURL g realm [openIDConnect g; "token"])
  | Op_EvaluatePermission _ realm _ _ _ => (MethodPost, getRealmURL g realm [openIDConnect g; "token"])
  end.

(** The values a request carries for a form key ([url.Values[k]]). *)
Definition formValues (r : Request) (k : string) : list string :=
  default [] (FormData_ r !! k).

(** The name of the Go method an invocation calls. *)
Definition methodName (op : Operation) : string :=
  match op with
  | Op_CreateUser _ _ _ => "CreateUser"
  | Op_DeleteUser _ _ _ => "DeleteUser"
  | Op_GetUserByID _ _ _ => "GetUserByID"
  | Op_GetUserCount _ _ _ => "GetUserCount"
  | Op_GetUserGroups _ _ _ _ => "GetUserGroups"
  | Op_GetUsers _ _ _ => "GetUsers"
  | Op_GetUsersByRoleName _ _ _ _ => "GetUsersByRoleName"
  | Op_GetUsersByClientRoleName _ _ _ _ _ => "GetUsersByClientRoleName"
  | Op_SetPassword _ _ _ _ _ => "SetPassword"
  | Op_UpdateUser _ _ _ => "UpdateUser"
  | Op_AddUserToGroup _ _ _ _ => "AddUserToGroup"
  | Op_DeleteUserFromGroup _ _ _ _ => "DeleteUserFromGroup"
  | Op_GetUserSessions _ _ _ => "GetUserSessions"
  | Op_GetUserOfflineSessionsForClient _ _ _ _ => "GetUserOfflineSessionsForClient"
  | Op_AddClientRolesToUser _ _ _ _ _ => "AddClientRolesToUser"
  | Op_AddClientRoleToUser _ _ _ _ _ => "AddClientRoleToUser"
  | Op_DeleteClientRolesFromUser _ _ _ _ _ => "DeleteClientRolesFromUser"
  | Op_DeleteClientRoleFromUser _ _ _ _ _ => "DeleteClientRoleFromUser"
  | Op_GetUserFederatedIdentities _ _ _ => "GetUserFederatedIdentities"
  | Op_CreateUserFederatedIdentity _ _ _ _ _ => "CreateUserFederatedIdentity"
  | Op_DeleteUserFederatedIdentity _ _ _ _ => "DeleteUserFederatedIdentity"
  | Op_GetRequestingPartyPermissions _ _ _ => "GetRequestingPartyPermissions"
  | Op_GetRequestingPartyPermissionDecision _ _ _ => "GetRequestingPartyPermissionDecision"
  | Op_CreateRealmRole _ _ _ => "CreateRealmRole"
  | Op_GetRealmRole _ _ _ => "GetRealmRole"
  | Op_GetRealmRoleByID _ _ _ => "GetRealmRoleByID"
  | Op_GetRealmRoles _ _ _ => "GetRealmRoles"
  | Op_GetRealmRolesByUserID _ _ _ => "GetRealmRolesByUserID"
  | Op_GetRealmRolesByGroupID _ _ _ => "GetRealmRolesByGroupID"
  | Op_UpdateRealmRole _ _ _ _ => "UpdateRealmRole"
  | Op_UpdateRealmRoleByID _ _ _ _ => "UpdateRealmRoleByID"
  | Op_DeleteRealmRole _ _ _ => "DeleteRealmRole"
  | Op_AddRealmRoleToUser _ _ _ _ => "AddRealmRoleToUser"
  | Op_DeleteRealmRoleFromUser _ _ _ _ => "DeleteRealmRoleFromUser"
  | Op_AddRealmRoleToGroup _ _ _ _ => "AddRealmRoleToGroup"
  | Op_DeleteRealmRoleFromGroup _ _ _ _ => "DeleteRealmRoleFromGroup"
  | Op_AddRealmRoleComposite _ _ _ _ => "AddRealmRoleComposite"
  | Op_DeleteRealmRoleComposite _ _ _ _ => "DeleteRealmRoleComposite"
  | Op_GetCompositeRealmRoles _ _ _ => "GetCompositeRealmRoles"
  | Op_GetCompositeRolesByRoleID _ _ _ => "GetCompositeRolesByRoleID"
  | Op_GetCompositeRealmRolesByRoleID _ _ _ => "GetCompositeRealmRolesByRoleID"
  | Op_GetCompositeRealmRolesByUserID _ _ _ => "GetCompositeRealmRolesByUserID"
  | Op_GetCompositeRealmRolesByGroupID _ _ _ => "GetCompositeRealmRolesByGroupID"
  | Op_GetAvailableRealmRolesByUserID _ _ _ => "GetAvailableRealmRolesByUserID"
  | Op_GetAvailableRealmRolesByGroupID _ _ _ => "GetAvailableRealmRolesByGroupID"
  | Op_GetRequestingPartyToken _ _ _ => "GetRequestingPartyToken"
  | Op_EvaluatePermission _ _ _ _ _ => "EvaluatePermission"
  end.

(** The status an operation answers with when it refuses to send. *)
Definition refusalStatus (op : Operation) : Z :=
  match op with
  | Op_GetRealmRoles _ _ _ => StatusInternalServerError
  | _ => StatusBadRequest
  end.

(** The middle return value after a success answer [resp] to the request
    [r]: the body decoded at the type given to [SetResult]; without a
    [SetResult], the identifier [getID] reads off the response, or no
    middle value at all. *)
Definition successValue (r : Request) (resp : Response) (v : option Value) : Prop :=
  match Result r with
  | Some t => v = Some (Decoded t (RespBody resp))
  | None => v = Some (Str (getID resp)) ∨ v = None
  end.

(** A pointer the heap [m] knows: nil, or the address of one of its cells. *)
Definition allocated {T : Type} (m : Mem) (p : pointer T) : Prop :=
  match p with
  | nil => True
  | ref a => is_Some (m !! a)
  end.

(** [FormData] puts the response mode and the grant type of the options,
    when present, under the form keys of the token endpoint. *)
Definition FormData_keeps_fields : Prop :=
  ∀ (m : Mem) (o : RequestingPartyTokenOptions) (a : addr) (s : string),
    m !! a = Some (CString s) →
    (ResponseMode o = ref a → FormData m o !! "response_mode" = Some s) ∧
    (GrantType o = ref a → s ≠ "" → FormData m o !! "grant_type" = Some s).

(** ** The claims that the code does not bear out, as they are worded *)




End Client.

(** ** A concrete setting

    An instance of the declarations, a server and a starting world, to run
    the operations on. *)
Module Sample.

Definition schema : Schema := {|
  GoKeycloak := string;                      (* the base path *)
  openIDConnect := λ _, "protocol/openid-connect";
  User := pointer string;                    (* a user is its ID field *)
  User_ID := λ u, u;
  Role := string;
  FederatedIdentityRepresentation := string;
  GetUsersParams := bool;                    (* does it serialize? *)
  GetGroupsParams := bool;
  GetUsersByRoleParams := bool;
  GetRoleParams := bool
|}.

Definition serializes (p : @Params schema) : bool :=
  match p with
  | OfGetUsersParams b | OfGetGroupsParams b
  | OfGetUsersByRoleParams b | OfGetRoleParams b => b
  end.

Definition field (k : string) (m : Mem) (p : pointer string)
    (d : gmap string string) : gmap string string :=
  match p with
  | ref a => match m !! a with Some (CString s) => <[k := s]> d | _ => d end
  | nil => d
  end.

Definition glue : @Glue schema := {|
  getRealmURL := λ (g : @GoKeycloak schema) realm path,
    String.concat "/" (g :: "realms" :: realm :: path);
  getAdminRealmURL := λ (g : @GoKeycloak schema) realm path,
    String.concat "/" (g :: "admin" :: "realms" :: realm :: path);
  GetQueryParams := λ _ p,
    if serializes p then (∅, None) else (∅, Some (New "json: unsupported value"));
  FormData := λ m o,
    field "grant_type" m (GrantType o)
      (field "audience" m (Audience o)
         (field "response_mode" m (ResponseMode o) ∅));
  getID := λ resp, default "" (RespHeader resp !! "Location")
|}.


(** A server that answers every request with an empty JSON document. *)
Definition ok : @Server schema :=
  λ _ _, Answer {| StatusCode := 200; RespBody := "{}"; RespHeader := ∅ |}.

(** A client on a local server; the caller holds two strings on the heap. *)
Definition world : @World schema :=
  @mkWorld schema "http://localhost:8080"
           [CString "ticket"; CString "resource#scope"] [].

(** The caller's options point at the two strings. *)
Definition options : RequestingPartyTokenOptions :=
  {| GrantType := nil; Audience := nil;
     ResponseMode := ref 0%nat; Permissions := nil |}.

(** Invocations, and the requests they are to send. *)
Definition getRole : @Operation schema :=
  Op_GetRealmRole "token" "master" "auditor".

Definition getRoleRequest : @Request schema :=
  withMethodURL "GET" "http://localhost:8080/admin/realms/master/roles/auditor"
    (SetResult TRole (@GetRequestWithBearerAuth schema (client world) "token")).



Definition setPassword : @Operation schema :=
  Op_SetPassword "token" "u1" "master" "s3cret" true.

Definition setPasswordRequest : @Request schema :=
  withMethodURL "PUT"
    "http://localhost:8080/admin/realms/master/users/u1/reset-password"
    (SetBody
       (OfSetPasswordRequest
          {| Type_ := ref 4%nat; Temporary := ref 3%nat; Password := ref 2%nat |})
       (@GetRequestWithBearerAuth schema (client world) "token")).

Definition getPermissions : @Operation schema :=
  Op_GetRequestingPartyPermissions "token" "master" options.

End Sample.

(** ** More invocations on the concrete setting *)
Module Scenario.
Import Sample.

(** A params structure that does not serialize, and one that does. *)
Definition getUsersUnserializable : @Operation schema :=
  @Op_GetUsers schema "token" "master" false.

Definition countUsers : @Operation schema :=
  @Op_GetUserCount schema "token" "master" true.

Definition countUsersRequest : @Request schema :=
  withMethodURL "GET" "http://localhost:8080/admin/realms/master/users/count"
    (SetQueryParams ∅
       (SetResult TInt (@GetRequestWithBearerAuth schema (client world) "token"))).

(** A user whose ID is the caller's first string, "ticket". *)
Definition updateUser : @Operation schema :=
  @Op_UpdateUser schema "token" "master" (ref 0%nat).

Definition updateUserRequest : @Request schema :=
  withMethodURL "PUT" "http://localhost:8080/admin/realms/master/users/ticket"
    (SetBody (@OfUser schema (ref 0%nat))
       (@GetRequestWithBearerAuth schema (client world) "token")).

Definition evaluate : @Operation schema :=
  Op_EvaluatePermission "token" "master" "account" "decision" ["resource#scope"].

End Scenario.

(** * Properties *)

Section Properties.
Context `{Glue}.

Implicit Types (op : Operation) (srv : Server) (w : World).

(** Unfold an invocation down to the reply of the server. *)
Ltac run_op :=
  cbv [sent invoke two three threeStr
       CreateUser DeleteUser GetUserByID GetUserCount GetUserGroups GetUsers
       GetUsersByRoleName GetUsersByClientRoleName SetPassword UpdateUser
       AddUserToGroup DeleteUserFromGroup GetUserSessions
       GetUserOfflineSessionsForClient AddClientRolesToUser AddClientRoleToUser
       DeleteClientRolesFromUser DeleteClientRoleFromUser
       GetUserFederatedIdentities CreateUserFederatedIdentity
       DeleteUserFederatedIdentity getRequestingParty
       GetRequestingPartyPermissions GetRequestingPartyPermissionDecision
       CreateRealmRole GetRealmRole GetRealmRoleByID GetRealmRoles
       GetRealmRolesByUserID GetRealmRolesByGroupID UpdateRealmRole
       UpdateRealmRoleByID DeleteRealmRole AddRealmRoleToUser
       DeleteRealmRoleFromUser AddRealmRoleToGroup DeleteRealmRoleFromGroup
       AddRealmRoleComposite DeleteRealmRoleComposite GetCompositeRealmRoles
       GetCompositeRolesByRoleID GetCompositeRealmRolesByRoleID
       GetCompositeRealmRolesByUserID GetCompositeRealmRolesByGroupID
       GetAvailableRealmRolesByUserID GetAvailableRealmRolesByGroupID
       GetRequestingPartyToken EvaluatePermission
       Get Post Put Delete Execute receiver memory alloc StringP
       checkForError errors_Wrap errors_New resultOf
       emptyUserID serializationFailed paramsOf
       mbind mret M_bind M_ret].

Ltac tidy :=
  cbn [fst snd client mem wire status value failure orb andb negb] in *.

(** Split on what the run depends on: the reply, its status, the outcome of
    the serialization, the emptiness of the user ID. *)
Ltac crunch :=
  repeat (tidy;
    first
    [ match goal with
      | |- context [match ?x with Answer _ => _ | Failure _ => _ end] =>
          destruct x eqn:?
      end
    | match goal with
      | |- context [GetQueryParams ?m ?p] =>
          destruct (GetQueryParams m p) as [? [?|]] eqn:?
      end
    | match goal with
      | |- context [IsSuccess ?r] => destruct (IsSuccess r) eqn:?
      end
    | case_bool_decide ]);
  tidy.

Ltac wire_done := rewrite ?drop_app_length, ?drop_all.

(** An invocation leaves the client alone, only adds cells to the heap and
    only adds requests to the wire. *)
Lemma invoke_frame op srv w :
  client (invoke op srv w).2 = client w ∧
  (∃ fresh, mem (invoke op srv w).2 = (mem w ++ fresh)%list) ∧
  wire (invoke op srv w).2 = (wire w ++ sent op srv w)%list.
Proof.
  destruct op; run_op; crunch; wire_done; rewrite ?app_nil_r;
    (split; [reflexivity | split; [| reflexivity]]);
    rewrite <- ?app_assoc;
    first [ by eexists | by (exists []; rewrite app_nil_r) ].
Qed.

(** What an invocation does, in full: either it refuses to send, with the
    refusal status and an error; or it sends one request, to the
    operation's endpoint, answers with the status of the response resty
    hands back, and turns a failed call into an error wrapping the
    operation's description, a success into the decoded result. *)
Lemma invoke_cases op srv w :
  if emptyUserID op || serializationFailed (mem w) op then
    sent op srv w = [] ∧
    status (invoke op srv w).1 = refusalStatus op ∧
    is_Some (failure (invoke op srv w).1)
  else
    ∃ r, sent op srv w = [r] ∧
         (Method r, URL r) = endpoint (client w) (mem w) op ∧
         status (invoke op srv w).1 = StatusCode (respOf (srv (wire w) r)) ∧
         if failed (srv (wire w) r)
         then ∃ e, failure (invoke op srv w).1 = Some e ∧
                   wraps e (description op) = true
         else failure (invoke op srv w).1 = None ∧
              successValue r (respOf (srv (wire w) r)) (value (invoke op srv w).1).
Proof.
  destruct op; run_op; crunch; wire_done;
    try match goal with
        | P : is_Some None |- _ => by destruct P
        | P : ¬ is_Some (Some _) |- _ => by destruct P
        end;
    try (by repeat split; eauto);
    (eexists; split; [reflexivity |]);
    repeat match goal with E : srv _ _ = _ |- _ => rewrite E end;
    cbn [respOf failed negb];
    repeat match goal with E : IsSuccess _ = _ |- _ => rewrite E end;
    cbn [negb];
    (split; [reflexivity | split; [reflexivity |]]);
    first [ by eexists | by split; [| cbv; auto] ].
Qed.


(** A cell of the old heap is a cell of the new one. *)
Lemma invoke_keeps_cells op srv w (a : addr) (c : cell) :
  mem w !! a = Some c → mem (invoke op srv w).2 !! a = Some c.
Proof.
  intros Hc. destruct (invoke_frame op srv w) as (_ & [fresh ->] & _).
  by apply lookup_app_l_Some.
Qed.

(** Reading a cell that an operation has added to the heap. *)
Lemma lookup_fresh (m fresh : Mem) (i : nat) :
  (m ++ fresh)%list !! (length m + i)%nat = fresh !! i.
Proof. rewrite lookup_app_r by lia. f_equal. lia. Qed.

Lemma lookup_fresh_0 (m fresh : Mem) (c : cell) :
  (m ++ c :: fresh)%list !! length m = Some c.
Proof. by apply list_lookup_middle. Qed.


(** The form values of the request that [getRequestingParty] builds. *)
Lemma formValues_token_request (d : gmap string string) (vs : list string)
    (g : GoKeycloak) (token method url k : string) (t : target) :
  formValues
    (withMethodURL method url
       (SetResult t
          (SetFormDataFromValues "permission" vs
             (SetFormData d (GetRequestWithBearerAuth g token))))) k =
  (default [] ((λ v, [v]) <$> d !! k)
     ++ (if bool_decide (k = "permission") then vs else []))%list.
Proof.
  unfold formValues. cbn.
  rewrite (right_id_L ∅ (∪)).
  destruct vs as [| v vs].
  - rewrite lookup_fmap. case_bool_decide; by rewrite app_nil_r.
  - case_bool_decide as Hk.
    + subst k. rewrite lookup_insert_eq. cbn. by rewrite lookup_fmap.
    + rewrite lookup_insert_ne by done. by rewrite lookup_fmap, app_nil_r.
Qed.

(** ** The claims *)






(** C6.  An invocation writes to no cell the caller can reach: every cell
    of the heap holds after the call what it held before, so whatever the
    caller's structures point to reads the same. *)
Theorem caller_data_unchanged op srv w :
  (∀ (a : addr) (c : cell),
     mem w !! a = Some c → mem (invoke op srv w).2 !! a = Some c) ∧
  (∀ p, allocated (mem w) p →
     PString (mem (invoke op srv w).2) p = PString (mem w) p) ∧
  (∀ p, allocated (mem w) p →
     PBool (mem (invoke op srv w).2) p = PBool (mem w) p) ∧
  (∀ p, allocated (mem w) p →
     PStringSlice (mem (invoke op srv w).2) p = PStringSlice (mem w) p).
Proof.
  split; [intros a c; apply invoke_keeps_cells |].
  repeat split; intros [| a]; [done | | done | | done |];
    intros [c Hc]; cbn;
    by rewrite (invoke_keeps_cells op srv w a c Hc), Hc.
Qed.

(** C7.  An invocation leaves the client value as it found it, so the
    client two invocations leave behind does not depend on their order. *)
Theorem client_unchanged op1 op2 srv w :
  client (invoke op1 srv w).2 = client w ∧
  client (invoke op2 srv (invoke op1 srv w).2).2 =
  client (invoke op1 srv (invoke op2 srv w).2).2.
Proof.
  split.
  - apply invoke_frame.
  - transitivity (client w).
    + rewrite (proj1 (invoke_frame op2 srv _)). apply invoke_frame.
    + symmetry. rewrite (proj1 (invoke_frame op1 srv _)). apply invoke_frame.
Qed.

(** C8.  [GetUserByID] with an empty user ID returns 400, a nil user and
    the error "userID shall not be empty" wrapped with the description,
    and leaves the world as it was: nothing is sent.  With any other user
    ID the GET request for that user is sent. *)
Theorem GetUserByID_guard (accessToken realm : string) srv w :
  GetUserByID accessToken realm "" srv w =
    ((StatusBadRequest, Nil,
      Some (Wrapped (New "userID shall not be empty") "could not get user by id")),
     w) ∧
  sent (Op_GetUserByID accessToken realm "") srv w = [] ∧
  ∀ userID, userID ≠ "" →
    sent (Op_GetUserByID accessToken realm userID) srv w =
      [withMethodURL MethodGet
         (getAdminRealmURL (client w) realm ["users"; userID])
         (SetResult TUser (GetRequestWithBearerAuth (client w) accessToken))].
Proof.
  split; [reflexivity |]. split.
  - run_op. rewrite bool_decide_eq_true_2 by done. tidy. by wire_done.
  - intros userID Hne. run_op. rewrite bool_decide_eq_false_2 by done.
    crunch; by wire_done.
Qed.

(** C9.  Provided [FormData] keeps the fields of the options under their
    form keys: [GetRequestingPartyPermissions] sends the response mode
    "permissions" and [GetRequestingPartyPermissionDecision] sends
    "decision", and what they send is the same whatever response mode the
    caller put in the options; [EvaluatePermission] sends the UMA ticket
    grant type for all its inputs. *)
Theorem response_mode_and_grant_type_fixed (token realm : string)
    (options : RequestingPartyTokenOptions) srv w :
  FormData_keeps_fields →
  (∃ r, sent (Op_GetRequestingPartyPermissions token realm options) srv w = [r] ∧
        formValues r "response_mode" = ["permissions"]) ∧
  (∃ r, sent (Op_GetRequestingPartyPermissionDecision token realm options) srv w = [r] ∧
        formValues r "response_mode" = ["decision"]) ∧
  (∀ mode : pointer string,
     sent (Op_GetRequestingPartyPermissions token realm
             (set_ResponseMode mode options)) srv w =
     sent (Op_GetRequestingPartyPermissions token realm options) srv w ∧
     sent (Op_GetRequestingPartyPermissionDecision token realm
             (set_ResponseMode mode options)) srv w =
     sent (Op_GetRequestingPartyPermissionDecision token realm options) srv w) ∧
  (∀ (audience response_mode : string) (permissions : list string),
     ∃ r, sent (Op_EvaluatePermission token realm audience response_mode
                  permissions) srv w = [r] ∧
          formValues r "grant_type" =
            ["urn:ietf:params:oauth:grant-type:uma-ticket"]).
Proof.
  intros Hfd.
  assert (∀ (m : Mem) (o : RequestingPartyTokenOptions) (vs : list string)
            (g : GoKeycloak) (method url s : string) (t : target) (a : addr),
            m !! a = Some (CString s) → ResponseMode o = ref a →
            formValues
              (withMethodURL method url
                 (SetResult t
                    (SetFormDataFromValues "permission" vs
                       (SetFormData (FormData m o)
                          (GetRequestWithBearerAuth g token)))))
              "response_mode" = [s]) as Hmode.
  { intros m o vs g method url s t a Hcell Ho.
    rewrite formValues_token_request, bool_decide_eq_false_2 by done.
    by rewrite (proj1 (Hfd m o a s Hcell) Ho). }
  assert (∀ (m : Mem) (o : RequestingPartyTokenOptions) (vs : list string)
            (g : GoKeycloak) (method url s : string) (t : target) (a : addr),
            m !! a = Some (CString s) → GrantType o = ref a → s ≠ "" →
            formValues
              (withMethodURL method url
                 (SetResult t
                    (SetFormDataFromValues "permission" vs
                       (SetFormData (FormData m o)
                          (GetRequestWithBearerAuth g token)))))
              "grant_type" = [s]) as Hgrant.
  { intros m o vs g method url s t a Hcell Ho Hs.
    rewrite formValues_token_request, bool_decide_eq_false_2 by done.
    by rewrite (proj2 (Hfd m o a s Hcell) Ho Hs). }
  split; [| split; [| split]].
  - run_op; crunch; wire_done; (eexists; split; [reflexivity |]);
      (eapply Hmode; [apply lookup_fresh_0 | reflexivity]).
  - run_op; crunch; wire_done; (eexists; split; [reflexivity |]);
      (eapply Hmode; [apply lookup_fresh_0 | reflexivity]).
  - intros mode. split; run_op; crunch; reflexivity.
  - intros audience response_mode permissions.
    run_op; crunch; wire_done; (eexists; split; [reflexivity |]);
      (eapply Hgrant; [| reflexivity | done]);
      rewrite <- !app_assoc; apply lookup_fresh_0.
Qed.

(** C10.  Each deprecated wrapper returns what its replacement returns,
    and leaves the world its replacement leaves. *)
Theorem deprecated_wrappers_equal (token realm idOfClient userID : string)
    (roles : list Role) srv w :
  AddClientRoleToUser token realm idOfClient userID roles srv w =
  AddClientRolesToUser token realm idOfClient userID roles srv w ∧
  DeleteClientRoleFromUser token realm idOfClient userID roles srv w =
  DeleteClientRolesFromUser token realm idOfClient userID roles srv w ∧
  invoke (Op_AddClientRoleToUser token realm idOfClient userID roles) srv w =
  invoke (Op_AddClientRolesToUser token realm idOfClient userID roles) srv w ∧
  invoke (Op_DeleteClientRoleFromUser token realm idOfClient userID roles) srv w =
  invoke (Op_DeleteClientRolesFromUser token realm idOfClient userID roles) srv w.
Proof. repeat split. Qed.

(** ** More of what the operations do *)



(** X3.  When the params structure does not serialize, the operation does
    nothing at all: the world is as before.  It answers with its refusal
    status, with a nil result (0 for the user count), and with the
    serialization error wrapped with its description; in
    [GetUsersByClientRoleName] the error is handed back as it is. *)
Theorem serialization_failure_refuses op srv w (p : Params)
    (q : gmap string string) (e : err) :
  paramsOf op = Some p →
  GetQueryParams (mem w) p = (q, Some e) →
  (invoke op srv w).2 = w ∧
  status (invoke op srv w).1 = refusalStatus op ∧
  value (invoke op srv w).1 =
    Some (if bool_decide (methodName op = "GetUserCount") then Int 0 else Nil) ∧
  failure (invoke op srv w).1 =
    Some (if bool_decide (methodName op = "GetUsersByClientRoleName")
          then e else Wrapped e (description op)).
Proof.
  destruct op; cbn [paramsOf]; intros [= <-] Hq; run_op; rewrite Hq; tidy;
    by destruct w.
Qed.



(** X6.  What a request carries goes with its verb.  A GET has no body and
    no form, and always a variable to decode the answer into.  A PUT or a
    DELETE never decodes an answer, and has neither query parameters nor a
    form.  A POST has no query parameters; it either carries a body, without
    form and without decoding, or is a token request: no body, and the
    answer decoded. *)
Theorem request_shape op srv w (r : Request) :
  r ∈ sent op srv w →
  (Method r = "GET" →
     ReqBody r = None ∧ is_Some (Result r) ∧ FormData_ r = ∅) ∧
  (Method r = "PUT" ∨ Method r = "DELETE" →
     Result r = None ∧ QueryParam r = ∅ ∧ FormData_ r = ∅) ∧
  (Method r = "POST" →
     QueryParam r = ∅ ∧
     (is_Some (ReqBody r) ∧ FormData_ r = ∅ ∧ Result r = None ∨
      ReqBody r = None ∧ is_Some (Result r))).
Proof.
  destruct op; run_op; crunch; wire_done;
    try (by intros Hr; inversion Hr);
    intros ->%list_elem_of_singleton;
    cbn [Method withMethodURL];
    (split; [| split]);
    try (by intros [= ]); try (by intros [[= ] | [= ]]);
    intros _; cbn; eauto 6.
Qed.

(** X7.  The query parameters of a request are the serialized params
    structure, no more and no less; an operation without a params structure
    sends none. *)
Theorem query_params_exact op srv w (r : Request) :
  r ∈ sent op srv w →
  QueryParam r =
    match paramsOf op with
    | Some p => (GetQueryParams (mem w) p).1
    | None => ∅
    end.
Proof.
  destruct op; run_op; crunch; wire_done;
    try (by intros Hr; inversion Hr);
    intros ->%list_elem_of_singleton;
    cbn;
    repeat match goal with E : GetQueryParams _ _ = _ |- _ => rewrite E end;
    cbn; by rewrite ?(right_id_L ∅ (∪)).
Qed.

(** X8.  Calls do not get in each other's way.  After any first call, the
    requests of a second call follow those of the first on the wire, and the
    second call goes to the endpoint it would have gone to on its own
    (for [UpdateUser], given a user whose ID the heap knows). *)
Theorem calls_compose op1 op2 srv w (r : Request) :
  match op2 with
  | Op_UpdateUser _ _ user => allocated (mem w) (User_ID user)
  | _ => True
  end →
  r ∈ sent op2 srv (invoke op1 srv w).2 →
  (Method r, URL r) = endpoint (client w) (mem w) op2 ∧
  wire (invoke op2 srv (invoke op1 srv w).2).2 =
    (wire w ++ sent op1 srv w ++ sent op2 srv (invoke op1 srv w).2)%list.
Proof.
  intros Hid Hr.
  destruct (invoke_frame op1 srv w) as (Hc & [fresh Hm] & Hw).
  destruct (invoke_frame op2 srv (invoke op1 srv w).2) as (_ & _ & Hw2).
  split; [| by rewrite Hw2, Hw, <- app_assoc].
  pose proof (invoke_cases op2 srv (invoke op1 srv w).2) as C.
  destruct (emptyUserID op2 || serializationFailed _ op2).
  - destruct C as (Hs & _). rewrite Hs in Hr. inversion Hr.
  - destruct C as (r0 & Hs & He & _). rewrite Hs in Hr.
    apply list_elem_of_singleton in Hr as ->. rewrite He, Hc.
    destruct op2; try reflexivity.
    cbn [endpoint]. do 4 f_equal.
    destruct (User_ID user) as [| a]; [done |].
    destruct Hid as [c Hcell]. cbn.
    by rewrite (invoke_keeps_cells op1 srv w a c Hcell), Hcell.
Qed.

(** The response mode on the wire, when [FormData] keeps the fields. *)
Lemma formValues_response_mode (m : Mem) (o : RequestingPartyTokenOptions)
    (vs : list string) (g : GoKeycloak) (token method url s : string)
    (t : target) (a : addr) :
  FormData_keeps_fields →
  m !! a = Some (CString s) → ResponseMode o = ref a →
  formValues
    (withMethodURL method url
       (SetResult t
          (SetFormDataFromValues "permission" vs
             (SetFormData (FormData m o) (GetRequestWithBearerAuth g token)))))
    "response_mode" = [s].
Proof.
  intros Hfd Hcell Ho.
  rewrite formValues_token_request, bool_decide_eq_false_2 by done.
  by rewrite (proj1 (Hfd m o a s Hcell) Ho).
Qed.

(** X9.  [EvaluatePermission] sends the response mode its caller gives: it
    does not override it as the two permission getters do.  (Provided
    [FormData] keeps the fields of the options under their form keys.) *)
Theorem EvaluatePermission_passes_response_mode
    (userToken realm audience response_mode : string)
    (permissions : list string) srv w :
  FormData_keeps_fields →
  ∃ r, sent (Op_EvaluatePermission userToken realm audience response_mode
               permissions) srv w = [r] ∧
       formValues r "response_mode" = [response_mode].
Proof.
  intros Hfd.
  run_op; crunch; wire_done; (eexists; split; [reflexivity |]);
    (eapply formValues_response_mode; [done | | reflexivity]);
    rewrite <- !app_assoc; cbn [app];
    rewrite length_app; cbn [length];
    by rewrite lookup_fresh.
Qed.



End Properties.

(** * The properties on the concrete setting *)

Section Runs.
Import Sample.

#[local] Existing Instance schema.
#[local] Existing Instance glue.








(** C6 on [GetRequestingPartyPermissions]: the string the caller's options
    point to is still "ticket" after the call. *)
Lemma caller_data_unchanged_witness :
  PString (mem (invoke getPermissions ok world).2) (ResponseMode options) = "ticket".
Proof.
  apply (proj1 (proj2 (caller_data_unchanged getPermissions ok world))
           (ResponseMode options)).
  cbn. eexists. reflexivity.
Defined.

(** C8 on the user ID "u1". *)
Lemma GetUserByID_guard_witness :
  sent (Op_GetUserByID "token" "master" "u1") ok world =
    [withMethodURL "GET" "http://localhost:8080/admin/realms/master/users/u1"
       (SetResult TUser (GetRequestWithBearerAuth (client world) "token"))].
Proof.
  assert ("u1" ≠ "") as Hne by discriminate.
  exact (proj2 (proj2 (GetUserByID_guard "token" "master" ok world)) "u1" Hne).
Defined.

(** The sample [FormData] keeps the fields. *)
Lemma lookup_field_ne (k k' : string) (m : Mem) (p : pointer string)
    (d : gmap string string) :
  k ≠ k' → field k m p d !! k' = d !! k'.
Proof.
  intros Hk. unfold field. destruct p as [| a]; [done |].
  destruct (m !! a) as [[] |]; try done. by apply lookup_insert_ne.
Qed.

Lemma lookup_field_eq (k s : string) (m : Mem) (a : addr)
    (d : gmap string string) :
  m !! a = Some (CString s) → field k m (ref a) d !! k = Some s.
Proof. intros Hc. unfold field. rewrite Hc. apply lookup_insert_eq. Qed.

Lemma sample_FormData_keeps_fields : FormData_keeps_fields.
Proof.
  intros m o a s Hc. cbn [FormData glue]. split.
  - intros ->. rewrite !lookup_field_ne by done. by apply lookup_field_eq.
  - intros -> _. by apply lookup_field_eq.
Qed.

(** C9 on options whose response mode the caller had set to "ticket". *)
Lemma response_mode_and_grant_type_fixed_witness :
  ∃ r, sent getPermissions ok world = [r] ∧
       formValues r "response_mode" = ["permissions"].
Proof.
  apply (proj1 (response_mode_and_grant_type_fixed "token" "master" options
                  ok world sample_FormData_keeps_fields)).
Defined.

End Runs.

Section MoreRuns.
Import Sample Scenario.

#[local] Existing Instance schema.
#[local] Existing Instance glue.

(** X3 on a [GetUsers] call whose params structure does not serialize. *)
Lemma serialization_failure_refuses_witness :
  (invoke getUsersUnserializable ok world).2 = world ∧
  status (invoke getUsersUnserializable ok world).1 = 400 ∧
  value (invoke getUsersUnserializable ok world).1 = Some Nil ∧
  failure (invoke getUsersUnserializable ok world).1 =
    Some (Wrapped (New "json: unsupported value") "could not get users").
Proof.
  exact (serialization_failure_refuses getUsersUnserializable ok world
           (OfGetUsersParams false) ∅ (New "json: unsupported value")
           eq_refl eq_refl).
Defined.


(** X6 on the GET request for a role. *)
Lemma request_shape_witness :
  ReqBody getRoleRequest = None ∧ is_Some (Result getRoleRequest) ∧
  FormData_ getRoleRequest = ∅.
Proof.
  assert (getRoleRequest ∈ sent getRole ok world) as Hsent
    by (vm_compute; apply list_elem_of_here).
  exact (proj1 (request_shape getRole ok world getRoleRequest Hsent) eq_refl).
Defined.

(** X7 on the user count: the sample serialization gives no parameter. *)
Lemma query_params_exact_witness :
  QueryParam countUsersRequest = ∅.
Proof.
  assert (countUsersRequest ∈ sent countUsers ok world) as Hsent
    by (vm_compute; apply list_elem_of_here).
  exact (query_params_exact countUsers ok world countUsersRequest Hsent).
Defined.

(** X8 on [UpdateUser] after a [SetPassword] that has put three cells on
    the heap. *)
Lemma calls_compose_witness :
  (Method updateUserRequest, URL updateUserRequest) =
    ("PUT", "http://localhost:8080/admin/realms/master/users/ticket") ∧
  wire (invoke updateUser ok (invoke setPassword ok world).2).2 =
    [setPasswordRequest; updateUserRequest].
Proof.
  assert (allocated (mem world) (ref 0%nat : pointer string)) as Hid
    by (cbn; eexists; reflexivity).
  assert (updateUserRequest ∈ sent updateUser ok (invoke setPassword ok world).2)
    as Hsent by (vm_compute; apply list_elem_of_here).
  exact (calls_compose setPassword updateUser ok world updateUserRequest
           Hid Hsent).
Defined.

(** X9 on a call that asks for a decision. *)
Lemma EvaluatePermission_passes_response_mode_witness :
  ∃ r, sent evaluate ok world = [r] ∧
       formValues r "response_mode" = ["decision"].
Proof.
  exact (EvaluatePermission_passes_response_mode "token" "master" "account"
           "decision" ["resource#scope"] ok world sample_FormData_keeps_fields).
Defined.

End MoreRuns.
